(** * PSoC_2_Pi: the masked-register pin driver and the command dispatcher

    A shallow embedding of two C files of the firmware:

    - [codegentemp/GPIO_12_7.c], the generated Pins component API
      (one copy of the same template exists per logical port), and
    - [Python.c], the frame decoder, the dispatcher and the response encoder.

    C integers are modelled as [Z]; every conversion to a fixed-width
    unsigned type is written out as a reduction modulo a power of two. *)

From Stdlib Require Import ZArith List Bool Lia.
From coqutil Require Import Z.bitblast.
Import ListNotations.
Local Open Scope Z_scope.

(** ** cytypes.h: fixed-width unsigned integers *)

Definition uint8 (x : Z) : Z := x mod 2 ^ 8.
Definition uint16 (x : Z) : Z := x mod 2 ^ 16.
Definition uint32 (x : Z) : Z := x mod 2 ^ 32.

(** [is_uint8 x]: [x] is a value a [uint8] object can hold. *)
Definition is_uint8 (x : Z) : Prop := 0 <= x < 2 ^ 8.
Definition is_uint16 (x : Z) : Prop := 0 <= x < 2 ^ 16.
Definition is_uint32 (x : Z) : Prop := 0 <= x < 2 ^ 32.

(** ** The specification's Port Register Model (spec section 4.1)

    These two definitions follow the words of the specification, over
    unbounded integers; the driver below is compared with them. *)

Definition pack (mask shift current_register_value logical_value : Z) : Z :=
  Z.lor (Z.land current_register_value (Z.lnot mask))
        (Z.land (Z.shiftl logical_value shift) mask).

Definition unpack (mask shift register_value : Z) : Z :=
  Z.shiftr (Z.land register_value mask) shift.

(** A descriptor is valid when [mask] is a run of [width] ones at offset
    [shift] that fits the 8-bit register. *)
Definition valid_descriptor (mask shift width : Z) : Prop :=
  0 <= shift /\ 0 <= width /\ shift + width <= 8 /\
  mask = Z.shiftl (Z.ones width) shift.

(** ** GPIO_12_7.c: the Pins component *)

Module Pins.

(** The port registers the component touches ([reg8] locations of
    GPIO_12_7.h): pin state, data output, interrupt status. *)
Record port_regs : Type := mk_port_regs {
  GPIO_12_7_PS : Z;
  GPIO_12_7_DR : Z;
  GPIO_12_7_INTSTAT : Z
}.

Definition regs_ok (h : port_regs) : Prop :=
  is_uint8 (GPIO_12_7_PS h) /\ is_uint8 (GPIO_12_7_DR h) /\
  is_uint8 (GPIO_12_7_INTSTAT h).

(** Register accesses are threaded through a state monad. *)
Definition hw (A : Type) : Type := port_regs -> A * port_regs.

Definition ret {A} (a : A) : hw A := fun h => (a, h).
Definition bind {A B} (m : hw A) (k : A -> hw B) : hw B :=
  fun h => let (a, h') := m h in k a h'.
Definition eval {A} (m : hw A) (h : port_regs) : A := fst (m h).
Definition exec {A} (m : hw A) (h : port_regs) : port_regs := snd (m h).

Notation "x <- m ;; k" := (bind m (fun x => k))
  (at level 61, m at next level, right associativity).

Section Component.

(** [GPIO_12_7__MASK] and [GPIO_12_7__SHIFT] come from cyfitter.h,
    which the design tool generates; they are parameters here. *)
Variables GPIO_12_7_MASK GPIO_12_7_SHIFT : Z.

(** Reading the pin-state or the data register has no effect on the
    bank; storing to the data register keeps the low 8 bits. *)
Definition load_PS : hw Z := fun h => (GPIO_12_7_PS h, h).
Definition load_DR : hw Z := fun h => (GPIO_12_7_DR h, h).
Definition store_DR (v : Z) : hw unit := fun h =>
  (tt, {| GPIO_12_7_PS := GPIO_12_7_PS h;
          GPIO_12_7_DR := uint8 v;
          GPIO_12_7_INTSTAT := GPIO_12_7_INTSTAT h |}).

(** Modelled from the spec: the read access of the interrupt status
    register is hardware behaviour and no C code of the repository;
    section 4.2 says the access "reads-and-clears the interrupt status
    bits belonging to this port's mask".  The load returns the value
    held before the access. *)
Definition load_INTSTAT : hw Z := fun h =>
  (GPIO_12_7_INTSTAT h,
   {| GPIO_12_7_PS := GPIO_12_7_PS h;
      GPIO_12_7_DR := GPIO_12_7_DR h;
      GPIO_12_7_INTSTAT :=
        Z.land (GPIO_12_7_INTSTAT h) (uint8 (Z.lnot GPIO_12_7_MASK)) |}).

(** [void GPIO_12_7_Write(uint8 value)] *)
Definition GPIO_12_7_Write (value : Z) : hw unit :=
  let value := uint8 value in
  dr <- load_DR ;;
  let staticBits := uint8 (Z.land dr (uint8 (Z.lnot GPIO_12_7_MASK))) in
  store_DR (Z.lor staticBits
              (Z.land (uint8 (Z.shiftl value GPIO_12_7_SHIFT))
                      GPIO_12_7_MASK)).

(** [uint8 GPIO_12_7_Read(void)] *)
Definition GPIO_12_7_Read : hw Z :=
  ps <- load_PS ;;
  ret (uint8 (Z.shiftr (Z.land ps GPIO_12_7_MASK) GPIO_12_7_SHIFT)).

(** [uint8 GPIO_12_7_ReadDataReg(void)] *)
Definition GPIO_12_7_ReadDataReg : hw Z :=
  dr <- load_DR ;;
  ret (uint8 (Z.shiftr (Z.land dr GPIO_12_7_MASK) GPIO_12_7_SHIFT)).

(** [uint8 GPIO_12_7_ClearInterrupt(void)], generated only when
    [GPIO_12_7_INTSTAT] is defined. *)
Definition GPIO_12_7_ClearInterrupt : hw Z :=
  st <- load_INTSTAT ;;
  ret (uint8 (Z.shiftr (Z.land st GPIO_12_7_MASK) GPIO_12_7_SHIFT)).

End Component.

End Pins.


(** ** Python.c: frame decoder, dispatcher, response encoder *)

Module Python.

(** Python.h is not among the sources.  [vessel_type] is rebuilt from the
    members Python.c reads and writes: [addr] and [cmd] receive [uint8]
    values, [dat] is copied into a [uint16]; [pin] and [port] only ever
    receive values below 8 and 16. *)
Record vessel_type : Type := mk_vessel {
  addr : Z;
  cmd : Z;
  dat : Z;
  pin : Z;
  port : Z
}.

(** The Command Frame of the specification (section 3): the three wire
    fields of a vessel. *)
Definition frame_of (vessel : vessel_type) : Z * Z * Z :=
  (addr vessel, cmd vessel, dat vessel).

(** The case labels of [Python_parser] that are guarded by a component
    header macro, in source order. *)
Inductive peripheral : Type :=
  | DELSIG_ADC_CONTROL | SAR_ADC0_CONTROL | SAR_ADC1_CONTROL
  | VDAC0_CONTROL | VDAC1_CONTROL | IDAC0_CONTROL | IDAC1_CONTROL
  | WAVEDAC_CONTROL
  | PWM_REGISTER0 | PWM_REGISTER1 | PWM_REGISTER2 | PWM_REGISTER3
  | PWM_REGISTER4 | PWM_REGISTER5 | PWM_REGISTER6 | PWM_REGISTER7
  | PWM_REGISTER8 | PWM_REGISTER9 | PWM_REGISTER10 | PWM_REGISTER11
  | ANALOG_IN_REGISTER | CAPSENSE_REGISTER.

Definition peripherals : list peripheral :=
  [ DELSIG_ADC_CONTROL; SAR_ADC0_CONTROL; SAR_ADC1_CONTROL;
    VDAC0_CONTROL; VDAC1_CONTROL; IDAC0_CONTROL; IDAC1_CONTROL;
    WAVEDAC_CONTROL;
    PWM_REGISTER0; PWM_REGISTER1; PWM_REGISTER2; PWM_REGISTER3;
    PWM_REGISTER4; PWM_REGISTER5; PWM_REGISTER6; PWM_REGISTER7;
    PWM_REGISTER8; PWM_REGISTER9; PWM_REGISTER10; PWM_REGISTER11;
    ANALOG_IN_REGISTER; CAPSENSE_REGISTER ].

(** C's [a || b] on integers. *)
Definition logical_or (a b : Z) : Z :=
  if negb (a =? 0) || negb (b =? 0) then 1 else 0.

Section Build.

(** The address constants are defined in Python.h; which guarded cases
    exist depends on the components placed in the design.  Both are
    parameters of the build. *)
Variable address_of : peripheral -> Z.
Variable compiled_in : peripheral -> bool.
Variables GPIO_REGISTER CHECK_BUILD RESET_ADDRESS : Z.

(** [addr] equals the label of a guarded case that is compiled in. *)
Definition peripheral_case (addr : Z) : bool :=
  existsb (fun p => compiled_in p && (address_of p =? addr)) peripherals.

(** C requires the labels of one [switch] to be pairwise distinct; the
    part of it the GPIO case needs. *)
Definition gpio_label_distinct : Prop :=
  peripheral_case GPIO_REGISTER = false.

(** [void Python_parser(vessel_type *vessel)].  Every guarded case is
    [break]; the switch has no [default]. *)
Definition Python_parser (vessel : vessel_type) : vessel_type :=
  let cmd := cmd vessel in
  let addr := addr vessel in
  if peripheral_case addr then vessel
  else if addr =? GPIO_REGISTER then
    let temp_data := dat vessel in
    let vessel :=
      {| addr := Python.addr vessel; cmd := Python.cmd vessel;
         dat := dat vessel;
         pin := Z.land (Z.shiftr temp_data 1) 7;
         port := port vessel |} in
    let vessel :=
      {| addr := Python.addr vessel; cmd := Python.cmd vessel;
         dat := dat vessel;
         pin := pin vessel;
         port := Z.land (Z.shiftr temp_data 4) 15 |} in
    if cmd =? 1 then
      {| addr := Python.addr vessel; cmd := Python.cmd vessel;
         dat := uint16 (Z.land temp_data 1);
         pin := pin vessel; port := port vessel |}
    else if cmd =? 3 then
      {| addr := Python.addr vessel; cmd := Python.cmd vessel;
         dat := uint16 (Z.land (Z.shiftr temp_data 8) 15);
         pin := pin vessel; port := port vessel |}
    else vessel
  else if addr =? CHECK_BUILD then vessel
  else if addr =? RESET_ADDRESS then vessel
  else vessel.

End Build.

(** *** The serial link

    The SPIS_1 and I2C_1 component APIs are generated code outside the
    sources.  The two records hold what Python.c observes of them. *)

(** Modelled from the spec: the SPI binding of the Transport Adapter
    (section 6).  [RxBuffer] holds the bytes the master has clocked in,
    oldest first; [TxBuffer] holds the bytes handed over for
    transmission, in send order. *)
Record SPIS_1 : Type := mk_SPIS_1 {
  RxBuffer : list Z;
  TxBuffer : list Z
}.

(** Modelled from the spec: the I2C binding of the Transport Adapter
    (section 6).  [WR_buf] and [RD_buf] are the two arrays of Python.c
    ([I2C_BUFFER_SIZE] entries each); the other members are what
    [I2C_1_SlaveGetWriteBufSize], [I2C_1_SlaveGetReadBufSize] and the
    [WR_CMPLT] bit of [I2C_1_SlaveStatus] report. *)
Record I2C_1 : Type := mk_I2C_1 {
  WR_buf : list Z;
  WriteBufSize : Z;
  WR_CMPLT : bool;
  RD_buf : list Z;
  ReadBufSize : Z
}.

(** [USE_SPI] or [USE_I2C], with the state of the selected component. *)
Inductive link : Type :=
  | USE_SPI (spi : SPIS_1)
  | USE_I2C (i2c : I2C_1).

(** [buf[i] = v] on a C array: [None] outside the array. *)
Fixpoint array_set (buf : list Z) (i : nat) (v : Z) : option (list Z) :=
  match buf, i with
  | [], _ => None
  | _ :: tl, O => Some (v :: tl)
  | hd :: tl, S j =>
      match array_set tl j v with
      | Some tl' => Some (hd :: tl')
      | None => None
      end
  end.

(** [while(!SPIS_1_GetRxBufferSize()){}] followed by
    [SPIS_1_ReadRxData()]: [None] when no byte ever arrives. *)
Definition SPIS_1_wait_ReadRxData (spi : SPIS_1)
  : option (Z * SPIS_1) :=
  match RxBuffer spi with
  | [] => None
  | b :: rest => Some (b, {| RxBuffer := rest; TxBuffer := TxBuffer spi |})
  end.

(** [void Python_getData(vessel_type *vessel)].  [None] stands for a
    call that stays blocked in one of its wait loops (or, in the I2C
    build, reads outside [WR_buf]). *)
Definition Python_getData (l : link) (vessel : vessel_type)
  : option (vessel_type * link) :=
  let received :=
    match l with
    | USE_SPI spi =>
        match SPIS_1_wait_ReadRxData spi with
        | None => None
        | Some (b0, spi) =>
        match SPIS_1_wait_ReadRxData spi with
        | None => None
        | Some (b1, spi) =>
        match SPIS_1_wait_ReadRxData spi with
        | None => None
        | Some (b2, spi) =>
        match SPIS_1_wait_ReadRxData spi with
        | None => None
        | Some (b3, spi) =>
            Some (uint8 b0, uint8 b1, uint8 b2, uint8 b3, USE_SPI spi)
        end end end end
    | USE_I2C i2c =>
        if WriteBufSize i2c =? 0 then None
        else if negb (WR_CMPLT i2c) then None
        else
          match nth_error (WR_buf i2c) 0, nth_error (WR_buf i2c) 1,
                nth_error (WR_buf i2c) 2, nth_error (WR_buf i2c) 3 with
          | Some b0, Some b1, Some b2, Some b3 =>
              Some (uint8 b0, uint8 b1, uint8 b2, uint8 b3,
                    USE_I2C {| WR_buf := WR_buf i2c;
                               WriteBufSize := 0;
                               WR_CMPLT := false;
                               RD_buf := RD_buf i2c;
                               ReadBufSize := ReadBufSize i2c |})
          | _, _, _, _ => None
          end
    end in
  match received with
  | None => None
  | Some (addr, cmd, dat_lo, dat_hi, l') =>
      Some ({| addr := addr;
               cmd := cmd;
               dat := uint16 (logical_or (Z.shiftl dat_hi 8) dat_lo);
               pin := pin vessel;
               port := port vessel |}, l')
  end.

(** [void Python_sendData(uint32 dat)].  [None] stands for a call that
    stays blocked before it hands any byte over (or, in the I2C build,
    writes outside [RD_buf]).  The result is the link as the function
    has it once the bytes are staged, that is, when its closing wait for
    the master begins (for [SPIS_1_STS_SPI_DONE] on SPI, for
    [I2C_1_SSTAT_RD_CMPLT] on I2C, where the read count is still 0).
    What the master does during that wait, clocking the response out
    and on SPI clocking new bytes in, is not modelled, so nothing below
    speaks about the receive side after the call. *)
Definition Python_sendData (dat : Z) (l : link) : option link :=
  let dat := uint32 dat in
  let out_hi := uint8 (Z.shiftr (Z.land dat 0xFF000000) 24) in
  let out_mid_hi := uint8 (Z.shiftr (Z.land dat 0x00FF0000) 16) in
  let out_mid_lo := uint8 (Z.shiftr (Z.land dat 0x0000FF00) 8) in
  let out_lo := uint8 (Z.land dat 0x000000FF) in
  match l with
  | USE_SPI spi =>
      (* ClearTxBuffer, ClearFIFO, ClearRxBuffer *)
      let spi := {| RxBuffer := []; TxBuffer := [] |} in
      let SPI_buffer := [out_mid_lo; out_mid_hi; out_hi] in
      (* WriteTxDataZero(out_lo) *)
      let spi := {| RxBuffer := RxBuffer spi;
                    TxBuffer := TxBuffer spi ++ [out_lo] |} in
      (* PutArray(SPI_buffer, 3) *)
      let spi := {| RxBuffer := RxBuffer spi;
                    TxBuffer := TxBuffer spi ++ firstn 3 SPI_buffer |} in
      Some (USE_SPI spi)
  | USE_I2C i2c =>
      if negb (ReadBufSize i2c =? 0) then None
      else
        match array_set (RD_buf i2c) 0 out_lo with
        | None => None
        | Some buf =>
        match array_set buf 1 out_mid_lo with
        | None => None
        | Some buf =>
        match array_set buf 2 out_mid_hi with
        | None => None
        | Some buf =>
        match array_set buf 3 out_hi with
        | None => None
        | Some buf =>
            Some (USE_I2C {| WR_buf := WR_buf i2c;
                             WriteBufSize := WriteBufSize i2c;
                             WR_CMPLT := WR_CMPLT i2c;
                             RD_buf := buf;
                             ReadBufSize := 0 |})
        end end end end
  end.

(** The four bytes the two halves of a transaction are about. *)

(** [delivers l a c lo hi]: the master has written the frame
    [a, c, lo, hi] and nothing of it has been consumed yet. *)
Definition delivers (l : link) (a c lo hi : Z) : Prop :=
  match l with
  | USE_SPI spi => exists rest, RxBuffer spi = a :: c :: lo :: hi :: rest
  | USE_I2C i2c =>
      WriteBufSize i2c <> 0 /\ WR_CMPLT i2c = true /\
      exists rest, WR_buf i2c = a :: c :: lo :: hi :: rest
  end.

(** [ready_to_send l]: nothing keeps [Python_sendData] from staging its
    bytes.  The I2C build needs an idle read buffer of at least 4 bytes. *)
Definition ready_to_send (l : link) : Prop :=
  match l with
  | USE_SPI _ => True
  | USE_I2C i2c => ReadBufSize i2c = 0 /\ (4 <= length (RD_buf i2c))%nat
  end.

(** [sent l]: the response bytes the master fetches, in send order. *)
Definition sent (l : link) : list Z :=
  match l with
  | USE_SPI spi => TxBuffer spi
  | USE_I2C i2c => firstn 4 (RD_buf i2c)
  end.

End Python.

(** ** Example data *)

Import Pins.
Import Python.

(** An example bank: port 12, pin 7 owns bit 7 of its registers. *)
Definition bank_0x55 : port_regs :=
  {| GPIO_12_7_PS := 0x80; GPIO_12_7_DR := 0x55; GPIO_12_7_INTSTAT := 0xC1 |}.

(** The specification's example: the register starts at 0; A owns mask
    1 at shift 0, B owns mask 2 at shift 1. *)
Definition bank_zero : port_regs :=
  {| GPIO_12_7_PS := 0; GPIO_12_7_DR := 0; GPIO_12_7_INTSTAT := 0 |}.

(** An example build: two guarded cases compiled in, GPIO at 0x20. *)
Definition example_address_of (p : peripheral) : Z :=
  match p with
  | VDAC0_CONTROL => 0x03
  | PWM_REGISTER0 => 0x08
  | _ => 0x00
  end.

Definition example_compiled_in (p : peripheral) : bool :=
  match p with
  | VDAC0_CONTROL | PWM_REGISTER0 => true
  | _ => false
  end.

Definition example_parser : vessel_type -> vessel_type :=
  Python_parser example_address_of example_compiled_in 0x20 0xEE 0xFF.

(** ** Further definitions used by the properties below *)

(** The guard around the API of GPIO_12_7.c and GPIO_12_7.h:
    [#if !(CY_PSOC5A && GPIO_12_7__PORT == 15 &&
           ((GPIO_12_7__MASK & 0xC0) != 0))].
    [true] when the functions are compiled.  The three macros are
    integers of cyfitter.h and cydevice.h. *)
Definition GPIO_12_7_api_generated
    (CY_PSOC5A GPIO_12_7__PORT GPIO_12_7__MASK : Z) : bool :=
  negb (negb (CY_PSOC5A =? 0) && (GPIO_12_7__PORT =? 15)
        && negb (Z.land GPIO_12_7__MASK 0xC0 =? 0)).

(** The values the members of a vessel hold between the decoder and the
    dispatcher: [uint8] address and command, [uint16] data, a pin index
    below 8 and a port index below 16. *)
Definition vessel_ok (vessel : vessel_type) : Prop :=
  is_uint8 (addr vessel) /\ is_uint8 (cmd vessel) /\
  is_uint16 (dat vessel) /\
  0 <= pin vessel < 8 /\ 0 <= port vessel < 16.

(** Four bytes put together least significant first. *)
Definition little_endian_32 (b0 b1 b2 b3 : Z) : Z :=
  b0 + 2 ^ 8 * b1 + 2 ^ 16 * b2 + 2 ^ 24 * b3.

(** * Properties *)

(** ** Fixed-width arithmetic *)

Lemma testbit_uint8 x i : Z.testbit (uint8 x) i = (i <? 8) && Z.testbit x i.
Proof. unfold uint8. apply Z.testbit_mod_pow2. lia. Qed.

Lemma testbit_is_uint8 x i : is_uint8 x -> 8 <= i -> Z.testbit x i = false.
Proof.
  intros H Hi. rewrite <- (Z.mod_small x (2 ^ 8)) by exact H.
  apply Z.mod_pow2_bits_high. lia.
Qed.

Lemma uint8_id x : is_uint8 x -> uint8 x = x.
Proof. intros H. apply Z.mod_small. exact H. Qed.

Lemma is_uint8_uint8 x : is_uint8 (uint8 x).
Proof. apply Z.mod_pos_bound. lia. Qed.

Lemma is_uint8_land_l x m : is_uint8 x -> is_uint8 (Z.land x m).
Proof.
  intros H. rewrite <- (uint8_id x H). unfold is_uint8.
  replace (Z.land (uint8 x) m) with (uint8 (Z.land x m)).
  - apply is_uint8_uint8.
  - apply Z.bits_inj'. intros i _.
    rewrite Z.land_spec, !testbit_uint8, Z.land_spec. apply andb_assoc.
Qed.

Lemma is_uint8_shiftr x s : is_uint8 x -> 0 <= s -> is_uint8 (Z.shiftr x s).
Proof.
  intros [H0 H1] Hs. rewrite Z.shiftr_div_pow2 by exact Hs.
  assert (Hp : 0 < 2 ^ s) by (apply Z.pow_pos_nonneg; lia).
  split.
  - apply Z.div_pos; lia.
  - apply Z.le_lt_trans with x; [| exact H1].
    apply Z.div_le_upper_bound; [exact Hp | nia].
Qed.

Lemma land_ones_range x n : 0 <= n -> 0 <= Z.land x (Z.ones n) < 2 ^ n.
Proof.
  intros Hn. rewrite Z.land_ones by exact Hn.
  apply Z.mod_pos_bound. apply Z.pow_pos_nonneg; lia.
Qed.

Lemma uint16_land_1 x : uint16 (Z.land x 1) = Z.land x 1.
Proof.
  pose proof (land_ones_range x 1 ltac:(lia)) as H.
  change (Z.ones 1) with 1 in H. apply Z.mod_small. lia.
Qed.

Lemma uint16_land_15 x : uint16 (Z.land x 15) = Z.land x 15.
Proof.
  pose proof (land_ones_range x 4 ltac:(lia)) as H.
  change (Z.ones 4) with 15 in H. apply Z.mod_small. lia.
Qed.

Lemma disjoint_bits a b i :
  Z.land a b = 0 -> Z.testbit a i = true -> Z.testbit b i = false.
Proof.
  intros H Ha.
  assert (E : Z.testbit (Z.land a b) i = false)
    by (rewrite H; apply Z.testbit_0_l).
  rewrite Z.land_spec, Ha in E. exact E.
Qed.

Lemma shiftl_1_pred_ones width :
  0 <= width -> Z.shiftl 1 width - 1 = Z.ones width.
Proof. intros H. rewrite Z.ones_equiv, Z.shiftl_1_l. lia. Qed.

(** ** The specification's pack and unpack *)

Lemma unpack_pack mask shift width r v :
  valid_descriptor mask shift width ->
  unpack mask shift (pack mask shift r v) = Z.land v (Z.shiftl 1 width - 1).
Proof.
  intros (Hs & Hw & _ & ->). rewrite shiftl_1_pred_ones by exact Hw.
  unfold unpack, pack. Z.bitblast.
Qed.

(** ** The Pins component *)

Ltac run_hw :=
  unfold eval, exec, GPIO_12_7_ReadDataReg, GPIO_12_7_Read,
    GPIO_12_7_ClearInterrupt, GPIO_12_7_Write, bind, ret,
    load_DR, load_PS, load_INTSTAT, store_DR;
  cbn [fst snd GPIO_12_7_DR GPIO_12_7_PS GPIO_12_7_INTSTAT].

Section PinsFacts.

Variables MASK SHIFT : Z.


(** The driver's write is the specification's [pack] on 8-bit data. *)
Lemma Write_refines_pack value h :
  is_uint8 MASK -> 0 <= SHIFT -> is_uint8 (GPIO_12_7_DR h) ->
  GPIO_12_7_DR (exec (GPIO_12_7_Write MASK SHIFT value) h)
  = pack MASK SHIFT (GPIO_12_7_DR h) (uint8 value).
Proof.
  intros Hm Hs Hr. run_hw. unfold pack.
  rewrite <- (uint8_id _ Hm), <- (uint8_id _ Hr). unfold uint8.
  Z.bitblast.
Qed.

(** The value both read functions return is the specification's
    [unpack] of the register they load. *)
Lemma uint8_unpack r :
  is_uint8 r -> 0 <= SHIFT ->
  uint8 (Z.shiftr (Z.land r MASK) SHIFT) = unpack MASK SHIFT r.
Proof.
  intros Hr Hs. unfold unpack. apply uint8_id.
  apply is_uint8_shiftr; [| exact Hs]. apply is_uint8_land_l, Hr.
Qed.

Lemma Write_keeps_PS_INTSTAT value h :
  GPIO_12_7_PS (exec (GPIO_12_7_Write MASK SHIFT value) h) = GPIO_12_7_PS h /\
  GPIO_12_7_INTSTAT (exec (GPIO_12_7_Write MASK SHIFT value) h) = GPIO_12_7_INTSTAT h.
Proof. split; reflexivity. Qed.

Lemma Write_outside value h i :
  is_uint8 (GPIO_12_7_DR h) ->
  Z.testbit MASK i = false ->
  Z.testbit (GPIO_12_7_DR (exec (GPIO_12_7_Write MASK SHIFT value) h)) i
  = Z.testbit (GPIO_12_7_DR h) i.
Proof.
  intros Hr Hm. run_hw.
  destruct (Z.ltb_spec i 0) as [Hneg | Hpos].
  { rewrite !Z.testbit_neg_r by lia. reflexivity. }
  rewrite !testbit_uint8, Z.lor_spec, Z.land_spec, !testbit_uint8,
    Z.land_spec, testbit_uint8.
  rewrite Z.lnot_spec by lia. rewrite Hm.
  destruct (Z.ltb_spec i 8) as [Hlo | Hhi]; cbn.
  - rewrite andb_false_r, orb_false_r, andb_true_r. reflexivity.
  - symmetry. apply testbit_is_uint8; assumption.
Qed.

End PinsFacts.

Lemma ReadDataReg_after_sibling_Write mA sA mB sB value h :
  is_uint8 (GPIO_12_7_DR h) ->
  Z.land mA mB = 0 ->
  eval (GPIO_12_7_ReadDataReg mB sB) (exec (GPIO_12_7_Write mA sA value) h)
  = eval (GPIO_12_7_ReadDataReg mB sB) h.
Proof.
  intros Hr Hd.
  change (eval (GPIO_12_7_ReadDataReg mB sB)
            (exec (GPIO_12_7_Write mA sA value) h))
    with (uint8 (Z.shiftr
            (Z.land (GPIO_12_7_DR (exec (GPIO_12_7_Write mA sA value) h)) mB)
            sB)).
  change (eval (GPIO_12_7_ReadDataReg mB sB) h)
    with (uint8 (Z.shiftr (Z.land (GPIO_12_7_DR h) mB) sB)).
  do 2 f_equal.
  apply Z.bits_inj'. intros i Hi.
  rewrite !Z.land_spec.
  destruct (Z.testbit mB i) eqn:Eb; [| rewrite !andb_false_r; reflexivity].
  rewrite !andb_true_r.
  apply Write_outside; [assumption |].
  destruct (Z.testbit mA i) eqn:Ea; [| reflexivity].
  rewrite (disjoint_bits _ _ _ Hd Ea) in Eb. discriminate.
Qed.

Lemma bank_0x55_ok : regs_ok bank_0x55.
Proof. unfold regs_ok, is_uint8, bank_0x55; cbn; lia. Qed.

Lemma valid_descriptor_0x80 : valid_descriptor 0x80 7 1.
Proof. unfold valid_descriptor. repeat split; lia. Qed.

(** C2 (mask/shift round trip).  For a valid descriptor, every register
    bank and every written value: reading the data register back after
    [GPIO_12_7_Write value] returns [value & ((1 << width) - 1)], and
    returns [value] itself when [0 <= value < 2^width]. *)
Theorem write_read_round_trip MASK SHIFT width :
  valid_descriptor MASK SHIFT width ->
  forall (h : port_regs) (value : Z),
    eval (GPIO_12_7_ReadDataReg MASK SHIFT)
         (exec (GPIO_12_7_Write MASK SHIFT value) h)
    = Z.land value (Z.shiftl 1 width - 1)
    /\ (0 <= value < 2 ^ width ->
        eval (GPIO_12_7_ReadDataReg MASK SHIFT)
             (exec (GPIO_12_7_Write MASK SHIFT value) h)
        = value).
Proof.
  intros (Hs & Hw & Hfit & ->) h value.
  assert (E : eval (GPIO_12_7_ReadDataReg (Z.shiftl (Z.ones width) SHIFT) SHIFT)
                (exec (GPIO_12_7_Write (Z.shiftl (Z.ones width) SHIFT) SHIFT
                         value) h)
              = Z.land value (Z.ones width)).
  { run_hw. unfold uint8. Z.bitblast. }
  rewrite shiftl_1_pred_ones by exact Hw.
  split; [exact E |].
  intros Hv. rewrite E, Z.land_ones by exact Hw.
  apply Z.mod_small. exact Hv.
Qed.

Lemma write_read_round_trip_witness :
  valid_descriptor 0x80 7 1 /\
  eval (GPIO_12_7_ReadDataReg 0x80 7)
       (exec (GPIO_12_7_Write 0x80 7 1) bank_0x55) = 1.
Proof.
  split; [exact valid_descriptor_0x80 |].
  apply (write_read_round_trip 0x80 7 1 valid_descriptor_0x80 bank_0x55 1).
  lia.
Defined.

(** C3 (register non-interference).  On an 8-bit data register,
    [GPIO_12_7_Write] leaves every bit outside the port's mask as it was;
    hence for two ports A and B with disjoint masks on one register, a
    write to A does not change what B reads back, and a write to B does
    not change what A reads back. *)
Theorem write_preserves_foreign_bits mA sA (h : port_regs) :
  is_uint8 (GPIO_12_7_DR h) ->
  forall valueA : Z,
    (forall i, Z.testbit mA i = false ->
       Z.testbit (GPIO_12_7_DR (exec (GPIO_12_7_Write mA sA valueA) h)) i
       = Z.testbit (GPIO_12_7_DR h) i)
    /\ (forall mB sB, Z.land mA mB = 0 ->
          eval (GPIO_12_7_ReadDataReg mB sB)
               (exec (GPIO_12_7_Write mA sA valueA) h)
          = eval (GPIO_12_7_ReadDataReg mB sB) h
          /\ forall valueB : Z,
               eval (GPIO_12_7_ReadDataReg mA sA)
                    (exec (GPIO_12_7_Write mB sB valueB) h)
               = eval (GPIO_12_7_ReadDataReg mA sA) h).
Proof.
  intros Hr valueA. split.
  - intros i Hi. apply Write_outside; assumption.
  - intros mB sB Hd. split.
    + apply ReadDataReg_after_sibling_Write; assumption.
    + intros valueB. apply ReadDataReg_after_sibling_Write; [assumption |].
      rewrite Z.land_comm. exact Hd.
Qed.

Lemma write_preserves_foreign_bits_witness :
  is_uint8 (GPIO_12_7_DR (exec (GPIO_12_7_Write 1 0 1) bank_zero)) /\
  Z.land 2 1 = 0 /\
  eval (GPIO_12_7_ReadDataReg 1 0)
       (exec (GPIO_12_7_Write 2 1 1) (exec (GPIO_12_7_Write 1 0 1) bank_zero))
  = eval (GPIO_12_7_ReadDataReg 1 0) (exec (GPIO_12_7_Write 1 0 1) bank_zero).
Proof.
  assert (Hr : is_uint8
                 (GPIO_12_7_DR (exec (GPIO_12_7_Write 1 0 1) bank_zero)))
    by (unfold is_uint8; cbn; lia).
  split; [exact Hr |]. split; [reflexivity |].
  apply (write_preserves_foreign_bits 2 1 _ Hr 1); reflexivity.
Defined.

Example sibling_writes_example :
  GPIO_12_7_DR (exec (GPIO_12_7_Write 1 0 1) bank_zero) = 1 /\
  GPIO_12_7_DR (exec (GPIO_12_7_Write 2 1 1)
                  (exec (GPIO_12_7_Write 1 0 1) bank_zero)) = 3 /\
  eval (GPIO_12_7_ReadDataReg 1 0)
       (exec (GPIO_12_7_Write 2 1 1)
          (exec (GPIO_12_7_Write 1 0 1) bank_zero)) = 1.
Proof. repeat split. Qed.

(** C7 (read operations).  On an 8-bit bank, [GPIO_12_7_Read] returns
    the specification's [unpack] of the pin-state register and
    [GPIO_12_7_ReadDataReg] that of the data register; neither changes
    any register, so a second call returns the same value; and there are
    banks on which the two functions return different values. *)
Theorem read_operations_pure MASK SHIFT (h : port_regs) :
  regs_ok h -> 0 <= SHIFT ->
  GPIO_12_7_Read MASK SHIFT h = (unpack MASK SHIFT (GPIO_12_7_PS h), h)
  /\ GPIO_12_7_ReadDataReg MASK SHIFT h
     = (unpack MASK SHIFT (GPIO_12_7_DR h), h)
  /\ eval (GPIO_12_7_Read MASK SHIFT) (exec (GPIO_12_7_Read MASK SHIFT) h)
     = eval (GPIO_12_7_Read MASK SHIFT) h
  /\ eval (GPIO_12_7_ReadDataReg MASK SHIFT)
          (exec (GPIO_12_7_ReadDataReg MASK SHIFT) h)
     = eval (GPIO_12_7_ReadDataReg MASK SHIFT) h
  /\ exec (GPIO_12_7_Read MASK SHIFT) (exec (GPIO_12_7_Read MASK SHIFT) h) = h
  /\ exec (GPIO_12_7_ReadDataReg MASK SHIFT)
          (exec (GPIO_12_7_ReadDataReg MASK SHIFT) h) = h
  /\ exists h' : port_regs,
       regs_ok h' /\
       eval (GPIO_12_7_Read 0x80 7) h' <> eval (GPIO_12_7_ReadDataReg 0x80 7) h'.
Proof.
  intros (Hps & Hdr & _) Hs.
  split.
  { run_hw. rewrite uint8_unpack by assumption. reflexivity. }
  split.
  { run_hw. rewrite uint8_unpack by assumption. reflexivity. }
  repeat (split; [reflexivity |]).
  exists bank_0x55. split; [exact bank_0x55_ok |].
  cbv. discriminate.
Qed.

Lemma read_operations_pure_witness :
  regs_ok bank_0x55 /\ 0 <= 7 /\
  GPIO_12_7_Read 0x80 7 bank_0x55 = (1, bank_0x55) /\
  GPIO_12_7_ReadDataReg 0x80 7 bank_0x55 = (0, bank_0x55).
Proof.
  assert (Hs : 0 <= 7) by lia.
  split; [exact bank_0x55_ok |]. split; [exact Hs |].
  destruct (read_operations_pure 0x80 7 bank_0x55 bank_0x55_ok Hs)
    as (Hread & Hdata & _).
  split; [exact Hread | exact Hdata].
Defined.

(** C8 (clear interrupt).  On an 8-bit bank, [GPIO_12_7_ClearInterrupt]
    returns [(INTSTAT & MASK) >> SHIFT] of the status held before the
    call; after the call the port's bits of the status register are
    clear, and the pin-state and data registers are as before. *)
Theorem clear_interrupt_status MASK SHIFT (h : port_regs) :
  regs_ok h -> 0 <= SHIFT ->
  eval (GPIO_12_7_ClearInterrupt MASK SHIFT) h
  = Z.shiftr (Z.land (GPIO_12_7_INTSTAT h) MASK) SHIFT
  /\ Z.land (GPIO_12_7_INTSTAT (exec (GPIO_12_7_ClearInterrupt MASK SHIFT) h))
            MASK = 0
  /\ GPIO_12_7_PS (exec (GPIO_12_7_ClearInterrupt MASK SHIFT) h)
     = GPIO_12_7_PS h
  /\ GPIO_12_7_DR (exec (GPIO_12_7_ClearInterrupt MASK SHIFT) h)
     = GPIO_12_7_DR h.
Proof.
  intros (_ & _ & Hst) Hs.
  split.
  { run_hw. rewrite uint8_unpack by assumption. reflexivity. }
  split; [| split; reflexivity].
  run_hw. apply Z.bits_inj'. intros i Hi.
  rewrite !Z.land_spec, testbit_uint8, Z.lnot_spec, Z.testbit_0_l by exact Hi.
  destruct (Z.testbit MASK i); cbn.
  - rewrite !andb_false_r. reflexivity.
  - apply andb_false_r.
Qed.

Lemma clear_interrupt_status_witness :
  regs_ok bank_0x55 /\ 0 <= 7 /\
  eval (GPIO_12_7_ClearInterrupt 0x80 7) bank_0x55 = 1 /\
  GPIO_12_7_INTSTAT (exec (GPIO_12_7_ClearInterrupt 0x80 7) bank_0x55) = 0x41.
Proof.
  assert (Hs : 0 <= 7) by lia.
  split; [exact bank_0x55_ok |]. split; [exact Hs |].
  destruct (clear_interrupt_status 0x80 7 bank_0x55 bank_0x55_ok Hs)
    as (Hret & _).
  split; [exact Hret | reflexivity].
Defined.

(** ** The dispatcher *)

Section ParserFacts.

Variable address_of : peripheral -> Z.
Variable compiled_in : peripheral -> bool.
Variables GPIO_REGISTER CHECK_BUILD RESET_ADDRESS : Z.

Lemma Python_parser_gpio_case vessel :
  gpio_label_distinct address_of compiled_in GPIO_REGISTER ->
  addr vessel = GPIO_REGISTER ->
  Python_parser address_of compiled_in GPIO_REGISTER CHECK_BUILD
    RESET_ADDRESS vessel =
  {| addr := addr vessel; cmd := cmd vessel;
     dat := if cmd vessel =? 1 then Z.land (dat vessel) 1
            else if cmd vessel =? 3 then Z.land (Z.shiftr (dat vessel) 8) 15
            else dat vessel;
     pin := Z.land (Z.shiftr (dat vessel) 1) 7;
     port := Z.land (Z.shiftr (dat vessel) 4) 15 |}.
Proof.
  intros Hd Ha. unfold Python_parser.
  rewrite Ha, Hd, Z.eqb_refl. cbn [addr cmd dat pin port].
  rewrite uint16_land_1, uint16_land_15.
  destruct (cmd vessel =? 1); [reflexivity |].
  destruct (cmd vessel =? 3); reflexivity.
Qed.

Lemma Python_parser_peripheral_case vessel :
  peripheral_case address_of compiled_in (addr vessel) = true ->
  Python_parser address_of compiled_in GPIO_REGISTER CHECK_BUILD
    RESET_ADDRESS vessel = vessel.
Proof. intros H. unfold Python_parser. rewrite H. reflexivity. Qed.

Lemma Python_parser_other_address vessel :
  addr vessel <> GPIO_REGISTER ->
  Python_parser address_of compiled_in GPIO_REGISTER CHECK_BUILD
    RESET_ADDRESS vessel = vessel.
Proof.
  intros Ha. unfold Python_parser.
  destruct (peripheral_case _ _ _); [reflexivity |].
  destruct (Z.eqb_spec (addr vessel) GPIO_REGISTER); [contradiction |].
  destruct (addr vessel =? CHECK_BUILD); [reflexivity |].
  destruct (addr vessel =? RESET_ADDRESS); reflexivity.
Qed.

Lemma Python_parser_addr_cmd vessel :
  addr (Python_parser address_of compiled_in GPIO_REGISTER CHECK_BUILD
          RESET_ADDRESS vessel) = addr vessel /\
  cmd (Python_parser address_of compiled_in GPIO_REGISTER CHECK_BUILD
         RESET_ADDRESS vessel) = cmd vessel.
Proof.
  destruct (Z.eq_dec (addr vessel) GPIO_REGISTER) as [Ha | Ha].
  - unfold Python_parser.
    destruct (peripheral_case _ _ _); [split; reflexivity |].
    rewrite Ha, Z.eqb_refl. cbn [addr cmd dat pin port].
    destruct (cmd vessel =? 1); [split; reflexivity |].
    destruct (cmd vessel =? 3); split; reflexivity.
  - rewrite Python_parser_other_address by assumption. split; reflexivity.
Qed.

(** C4 (GPIO sub-protocol).  For a frame addressed to [GPIO_REGISTER]
    the parser sets [pin = (data >> 1) & 7] and [port = (data >> 4) & 0xF]
    from the data it received; command 1 replaces the data by
    [data & 1], command 3 by [(data >> 8) & 0xF]; any other command
    leaves the frame (address, command, data) as it was. *)
Theorem parser_gpio_sub_protocol vessel :
  gpio_label_distinct address_of compiled_in GPIO_REGISTER ->
  addr vessel = GPIO_REGISTER ->
  let vessel' :=
    Python_parser address_of compiled_in GPIO_REGISTER CHECK_BUILD
      RESET_ADDRESS vessel in
  pin vessel' = Z.land (Z.shiftr (dat vessel) 1) 7
  /\ port vessel' = Z.land (Z.shiftr (dat vessel) 4) 15
  /\ (cmd vessel = 1 -> dat vessel' = Z.land (dat vessel) 1)
  /\ (cmd vessel = 3 -> dat vessel' = Z.land (Z.shiftr (dat vessel) 8) 15)
  /\ (cmd vessel <> 1 -> cmd vessel <> 3 -> frame_of vessel' = frame_of vessel).
Proof.
  intros Hd Ha vessel'. subst vessel'.
  rewrite Python_parser_gpio_case by assumption.
  unfold frame_of. cbn [addr cmd dat pin port].
  repeat split.
  - intros ->. reflexivity.
  - intros ->. reflexivity.
  - intros H1 H3.
    destruct (Z.eqb_spec (cmd vessel) 1); [contradiction |].
    destruct (Z.eqb_spec (cmd vessel) 3); [contradiction |].
    reflexivity.
Qed.

(** C5 (silent ignore), as amended.  A frame whose address is no
    compiled-in peripheral label, not [GPIO_REGISTER] and not a reserved
    address comes back unchanged.  The same holds for every command sent
    to a compiled-in peripheral address or to a reserved address.  A
    command other than 1 and 3 sent to [GPIO_REGISTER] is not a no-op:
    the address, command and data members stay as they were, but the pin
    and port members are overwritten with [(data >> 1) & 7] and
    [(data >> 4) & 0xF].  The parser is a total function on vessels: it
    has no error result and no state besides the vessel. *)
Theorem parser_silent_ignore vessel :
  (peripheral_case address_of compiled_in (addr vessel) = false ->
   addr vessel <> GPIO_REGISTER ->
   addr vessel <> CHECK_BUILD -> addr vessel <> RESET_ADDRESS ->
   Python_parser address_of compiled_in GPIO_REGISTER CHECK_BUILD
     RESET_ADDRESS vessel = vessel)
  /\ (peripheral_case address_of compiled_in (addr vessel) = true ->
      Python_parser address_of compiled_in GPIO_REGISTER CHECK_BUILD
        RESET_ADDRESS vessel = vessel)
  /\ (addr vessel = CHECK_BUILD \/ addr vessel = RESET_ADDRESS ->
      addr vessel <> GPIO_REGISTER ->
      Python_parser address_of compiled_in GPIO_REGISTER CHECK_BUILD
        RESET_ADDRESS vessel = vessel)
  /\ (gpio_label_distinct address_of compiled_in GPIO_REGISTER ->
      addr vessel = GPIO_REGISTER ->
      cmd vessel <> 1 -> cmd vessel <> 3 ->
      Python_parser address_of compiled_in GPIO_REGISTER CHECK_BUILD
        RESET_ADDRESS vessel
      = {| addr := addr vessel; cmd := cmd vessel; dat := dat vessel;
           pin := Z.land (Z.shiftr (dat vessel) 1) 7;
           port := Z.land (Z.shiftr (dat vessel) 4) 15 |}).
Proof.
  split; [| split; [| split]].
  - intros _ Ha _ _. apply Python_parser_other_address, Ha.
  - apply Python_parser_peripheral_case.
  - intros _ Ha. apply Python_parser_other_address, Ha.
  - intros Hd Ha H1 H3. rewrite Python_parser_gpio_case by assumption.
    destruct (Z.eqb_spec (cmd vessel) 1); [contradiction |].
    destruct (Z.eqb_spec (cmd vessel) 3); [contradiction |].
    reflexivity.
Qed.

(** C10 (what the parser leaves alone).  The parser never changes the
    address and command members; for an address other than
    [GPIO_REGISTER] it returns the whole vessel, data, pin and port
    included, unchanged. *)
Theorem parser_preserves_frame vessel :
  addr (Python_parser address_of compiled_in GPIO_REGISTER CHECK_BUILD
          RESET_ADDRESS vessel) = addr vessel
  /\ cmd (Python_parser address_of compiled_in GPIO_REGISTER CHECK_BUILD
            RESET_ADDRESS vessel) = cmd vessel
  /\ (addr vessel <> GPIO_REGISTER ->
      Python_parser address_of compiled_in GPIO_REGISTER CHECK_BUILD
        RESET_ADDRESS vessel = vessel).
Proof.
  destruct (Python_parser_addr_cmd vessel) as [Ha Hc].
  split; [exact Ha |]. split; [exact Hc |].
  apply Python_parser_other_address.
Qed.

End ParserFacts.

Lemma example_gpio_label_distinct :
  gpio_label_distinct example_address_of example_compiled_in 0x20.
Proof. reflexivity. Qed.

Lemma parser_gpio_sub_protocol_witness :
  gpio_label_distinct example_address_of example_compiled_in 0x20 /\
  pin (example_parser (mk_vessel 0x20 0x01 0x0012 0 0)) = 1 /\
  port (example_parser (mk_vessel 0x20 0x01 0x0012 0 0)) = 1 /\
  dat (example_parser (mk_vessel 0x20 0x01 0x0012 0 0)) = 0.
Proof.
  split; [exact example_gpio_label_distinct |].
  destruct (parser_gpio_sub_protocol example_address_of example_compiled_in
              0x20 0xEE 0xFF (mk_vessel 0x20 0x01 0x0012 0 0)
              example_gpio_label_distinct eq_refl)
    as (Hpin & Hport & Hcmd1 & _).
  split; [exact Hpin |]. split; [exact Hport |].
  exact (Hcmd1 eq_refl).
Defined.

Lemma parser_silent_ignore_witness :
  example_parser (mk_vessel 0x77 0x01 0xBEEF 5 9) = mk_vessel 0x77 0x01 0xBEEF 5 9
  /\ example_parser (mk_vessel 0x08 0x01 0xBEEF 5 9) = mk_vessel 0x08 0x01 0xBEEF 5 9
  /\ example_parser (mk_vessel 0xEE 0x01 0xBEEF 5 9) = mk_vessel 0xEE 0x01 0xBEEF 5 9
  /\ example_parser (mk_vessel 0x20 0x02 0xBEEF 5 9)
     = mk_vessel 0x20 0x02 0xBEEF 7 14.
Proof.
  split; [| split; [| split]].
  - apply (proj1 (parser_silent_ignore example_address_of example_compiled_in
                    0x20 0xEE 0xFF (mk_vessel 0x77 0x01 0xBEEF 5 9)));
      cbn; [reflexivity | lia | lia | lia].
  - apply (proj1 (proj2 (parser_silent_ignore example_address_of
                           example_compiled_in 0x20 0xEE 0xFF
                           (mk_vessel 0x08 0x01 0xBEEF 5 9)))).
    reflexivity.
  - apply (proj1 (proj2 (proj2 (parser_silent_ignore example_address_of
                                  example_compiled_in 0x20 0xEE 0xFF
                                  (mk_vessel 0xEE 0x01 0xBEEF 5 9)))));
      cbn; [left; reflexivity | lia].
  - apply (proj2 (proj2 (proj2 (parser_silent_ignore example_address_of
                                  example_compiled_in 0x20 0xEE 0xFF
                                  (mk_vessel 0x20 0x02 0xBEEF 5 9)))));
      cbn; [exact example_gpio_label_distinct | reflexivity | lia | lia].
Defined.

(** C5 as first stated fails: command 2 is not supported at
    [GPIO_REGISTER] (here 0x20), yet the vessel that comes back differs
    from the one sent in, its pin going from 5 to 7 and its port from 9
    to 14. *)
Lemma parser_silent_ignore_counterexample :
  gpio_label_distinct example_address_of example_compiled_in 0x20
  /\ addr (mk_vessel 0x20 0x02 0xBEEF 5 9) = 0x20
  /\ cmd (mk_vessel 0x20 0x02 0xBEEF 5 9) <> 1
  /\ cmd (mk_vessel 0x20 0x02 0xBEEF 5 9) <> 3
  /\ pin (example_parser (mk_vessel 0x20 0x02 0xBEEF 5 9)) = 7
  /\ port (example_parser (mk_vessel 0x20 0x02 0xBEEF 5 9)) = 14
  /\ example_parser (mk_vessel 0x20 0x02 0xBEEF 5 9)
     <> mk_vessel 0x20 0x02 0xBEEF 5 9.
Proof.
  split; [exact example_gpio_label_distinct |].
  split; [reflexivity |].
  cbn [cmd]. split; [lia |]. split; [lia |].
  split; [reflexivity |]. split; [reflexivity |].
  intros E. apply (f_equal pin) in E. cbn in E. lia.
Qed.

Lemma parser_preserves_frame_witness :
  0x77 <> 0x20 /\
  example_parser (mk_vessel 0x77 0x03 0xBEEF 5 9) = mk_vessel 0x77 0x03 0xBEEF 5 9.
Proof.
  assert (Hne : 0x77 <> 0x20) by lia.
  split; [exact Hne |].
  apply (proj2 (proj2 (parser_preserves_frame example_address_of
                         example_compiled_in 0x20 0xEE 0xFF
                         (mk_vessel 0x77 0x03 0xBEEF 5 9)))).
  exact Hne.
Defined.

(** ** The decoder and the encoder *)

Lemma shiftl_8_eq_0 x : Z.shiftl x 8 = 0 <-> x = 0.
Proof. rewrite Z.shiftl_mul_pow2 by lia. lia. Qed.

Lemma logical_or_hi_lo hi lo :
  uint16 (logical_or (Z.shiftl hi 8) lo)
  = if (hi =? 0) && (lo =? 0) then 0 else 1.
Proof.
  unfold logical_or.
  destruct (Z.eqb_spec hi 0) as [-> | Hhi].
  - cbn. destruct (lo =? 0); reflexivity.
  - destruct (Z.eqb_spec (Z.shiftl hi 8) 0) as [E | _].
    + apply (proj1 (shiftl_8_eq_0 hi)) in E. contradiction.
    + reflexivity.
Qed.

Lemma Python_getData_delivers l vessel a c lo hi :
  delivers l a c lo hi ->
  exists l',
    Python_getData l vessel =
    Some ({| addr := uint8 a; cmd := uint8 c;
             dat := if (uint8 hi =? 0) && (uint8 lo =? 0) then 0 else 1;
             pin := pin vessel; port := port vessel |}, l').
Proof.
  destruct l as [spi | i2c]; cbn [delivers].
  - intros [rest E]. destruct spi as [rx tx]; cbn in E; subst rx.
    eexists. unfold Python_getData, SPIS_1_wait_ReadRxData.
    cbn [RxBuffer TxBuffer]. rewrite logical_or_hi_lo. reflexivity.
  - intros (Hsz & Hc & rest & E).
    eexists. unfold Python_getData.
    rewrite E, Hc. cbn [nth_error negb].
    destruct (Z.eqb_spec (WriteBufSize i2c) 0); [contradiction |].
    rewrite logical_or_hi_lo. reflexivity.
Qed.

Lemma byte_of_uint32 dat k :
  is_uint32 dat -> 0 <= k <= 24 ->
  uint8 (Z.shiftr (Z.land (uint32 dat) (Z.shiftl 255 k)) k)
  = Z.land (Z.shiftr dat k) 255.
Proof.
  intros Hd Hk. unfold uint32. rewrite (Z.mod_small dat) by exact Hd.
  unfold uint8. change 255 with (Z.ones 8).
  Z.bitblast.
Qed.

(** C1 (decode of the specification's example frame).  The frame
    [0x20, 0x01, 0x12, 0x00] is decoded, on either bus, to address 0x20
    and command 0x01 with the data member 1; the bitwise assembly
    [(0x00 << 8) | 0x12] would be 0x0012. *)
Theorem getData_frame_0x20_0x01_0x12_0x00 :
  (forall vessel rest tx,
     Python_getData
       (USE_SPI {| RxBuffer := 0x20 :: 0x01 :: 0x12 :: 0x00 :: rest;
                   TxBuffer := tx |}) vessel
     = Some ({| addr := 0x20; cmd := 0x01; dat := 1;
                pin := pin vessel; port := port vessel |},
             USE_SPI {| RxBuffer := rest; TxBuffer := tx |}))
  /\ (forall vessel rest rd n,
        Python_getData
          (USE_I2C {| WR_buf := 0x20 :: 0x01 :: 0x12 :: 0x00 :: rest;
                      WriteBufSize := 4; WR_CMPLT := true;
                      RD_buf := rd; ReadBufSize := n |}) vessel
        = Some ({| addr := 0x20; cmd := 0x01; dat := 1;
                   pin := pin vessel; port := port vessel |},
                USE_I2C {| WR_buf := 0x20 :: 0x01 :: 0x12 :: 0x00 :: rest;
                           WriteBufSize := 0; WR_CMPLT := false;
                           RD_buf := rd; ReadBufSize := n |}))
  /\ Z.lor (Z.shiftl 0x00 8) 0x12 = 0x0012
  /\ 1 <> 0x0012.
Proof.
  split; [| split; [| split]].
  - intros. reflexivity.
  - intros. reflexivity.
  - reflexivity.
  - lia.
Qed.

(** C9 (what the decoder stores).  When the master has delivered the
    bytes address, command, data_low, data_high, [Python_getData]
    returns, with the address and the command stored as received and the
    data member equal to 1 if data_high or data_low is nonzero and to 0
    if both are zero; the data member never exceeds 1. *)
Theorem getData_stores_logical_or l vessel a c lo hi :
  delivers l a c lo hi ->
  is_uint8 a -> is_uint8 c -> is_uint8 lo -> is_uint8 hi ->
  exists vessel' l',
    Python_getData l vessel = Some (vessel', l')
    /\ addr vessel' = a /\ cmd vessel' = c
    /\ (hi <> 0 \/ lo <> 0 -> dat vessel' = 1)
    /\ (hi = 0 /\ lo = 0 -> dat vessel' = 0)
    /\ 0 <= dat vessel' <= 1.
Proof.
  intros Hdel Ha Hc Hlo Hhi.
  destruct (Python_getData_delivers l vessel a c lo hi Hdel) as [l' E].
  rewrite (uint8_id a Ha), (uint8_id c Hc), (uint8_id lo Hlo),
    (uint8_id hi Hhi) in E.
  eexists. exists l'. split; [exact E |].
  cbn [addr cmd dat].
  split; [reflexivity |]. split; [reflexivity |].
  destruct (Z.eqb_spec hi 0) as [E0 | E0], (Z.eqb_spec lo 0) as [E1 | E1];
    cbn [andb]; repeat split; intros; lia.
Qed.

Lemma getData_stores_logical_or_witness :
  exists vessel' l',
    Python_getData (USE_SPI (mk_SPIS_1 [0x20; 0x01; 0x12; 0x34] []))
      (mk_vessel 0 0 0 0 0) = Some (vessel', l')
    /\ addr vessel' = 0x20 /\ cmd vessel' = 0x01
    /\ (0x34 <> 0 \/ 0x12 <> 0 -> dat vessel' = 1)
    /\ (0x34 = 0 /\ 0x12 = 0 -> dat vessel' = 0)
    /\ 0 <= dat vessel' <= 1.
Proof.
  apply (getData_stores_logical_or
           (USE_SPI (mk_SPIS_1 [0x20; 0x01; 0x12; 0x34] []))
           (mk_vessel 0 0 0 0 0) 0x20 0x01 0x12 0x34).
  - exists []. reflexivity.
  - unfold is_uint8; lia.
  - unfold is_uint8; lia.
  - unfold is_uint8; lia.
  - unfold is_uint8; lia.
Defined.

(** C6 (encode byte order).  For every 32-bit value, on a link that is
    ready to send, [Python_sendData] returns and the bytes the master
    fetches are exactly [dat & 0xFF], [(dat >> 8) & 0xFF],
    [(dat >> 16) & 0xFF], [(dat >> 24) & 0xFF], in this order. *)
Theorem sendData_lsb_first l dat :
  ready_to_send l -> is_uint32 dat ->
  exists l',
    Python_sendData dat l = Some l' /\
    sent l' = [ Z.land dat 0xFF; Z.land (Z.shiftr dat 8) 0xFF;
                Z.land (Z.shiftr dat 16) 0xFF; Z.land (Z.shiftr dat 24) 0xFF ].
Proof.
  intros Hr Hd.
  pose proof (byte_of_uint32 dat 0 Hd ltac:(lia)) as B0.
  pose proof (byte_of_uint32 dat 8 Hd ltac:(lia)) as B1.
  pose proof (byte_of_uint32 dat 16 Hd ltac:(lia)) as B2.
  pose proof (byte_of_uint32 dat 24 Hd ltac:(lia)) as B3.
  rewrite Z.shiftr_0_r in B0.
  change (Z.shiftl 255 0) with 0x000000FF in B0.
  change (Z.shiftl 255 8) with 0x0000FF00 in B1.
  change (Z.shiftl 255 16) with 0x00FF0000 in B2.
  change (Z.shiftl 255 24) with 0xFF000000 in B3.
  destruct l as [spi | i2c]; cbn [ready_to_send] in Hr.
  - eexists. split; [reflexivity |].
    cbn [sent TxBuffer RxBuffer app firstn].
    rewrite B0, B1, B2, B3. reflexivity.
  - destruct Hr as [Hsz Hlen].
    unfold Python_sendData. rewrite Hsz. cbn [Z.eqb negb].
    rewrite B0, B1, B2, B3.
    destruct (RD_buf i2c) as [| x0 [| x1 [| x2 [| x3 rest]]]];
      cbn in Hlen; try lia.
    eexists. split; reflexivity.
Qed.

Lemma sendData_lsb_first_witness :
  exists l',
    Python_sendData 0x12345678 (USE_SPI (mk_SPIS_1 [0xAA] [0xBB])) = Some l'
    /\ sent l' = [0x78; 0x56; 0x34; 0x12].
Proof.
  apply (sendData_lsb_first (USE_SPI (mk_SPIS_1 [0xAA] [0xBB])) 0x12345678).
  - exact I.
  - unfold is_uint32; lia.
Defined.

Example sendData_0x12345678_i2c :
  option_map sent
    (Python_sendData 0x12345678
       (USE_I2C (mk_I2C_1 [] 0 false [0; 0; 0; 0; 0; 0; 0; 0] 0)))
  = Some [0x78; 0x56; 0x34; 0x12].
Proof. reflexivity. Qed.

(** * Further properties of the code *)

(** ** The Pins component: composing writes and reads *)

Lemma port_regs_eq h1 h2 :
  GPIO_12_7_PS h1 = GPIO_12_7_PS h2 ->
  GPIO_12_7_DR h1 = GPIO_12_7_DR h2 ->
  GPIO_12_7_INTSTAT h1 = GPIO_12_7_INTSTAT h2 -> h1 = h2.
Proof. destruct h1, h2; cbn; intros; subst; reflexivity. Qed.

(** X1 (the last write wins).  Two writes to the same port in a row
    leave the bank exactly as the second write alone would, whatever
    the register held and whatever mask and shift are. *)
Theorem write_last_wins MASK SHIFT value1 value2 (h : port_regs) :
  exec (GPIO_12_7_Write MASK SHIFT value2)
       (exec (GPIO_12_7_Write MASK SHIFT value1) h)
  = exec (GPIO_12_7_Write MASK SHIFT value2) h.
Proof.
  apply port_regs_eq; [reflexivity | | reflexivity].
  run_hw. unfold uint8. Z.bitblast.
Qed.

(** X2 (writes to sibling ports commute).  For two ports with disjoint
    masks on one bank, writing A then B leaves the same bank as writing
    B then A. *)
Theorem sibling_writes_commute mA sA mB sB valueA valueB (h : port_regs) :
  Z.land mA mB = 0 ->
  exec (GPIO_12_7_Write mA sA valueA) (exec (GPIO_12_7_Write mB sB valueB) h)
  = exec (GPIO_12_7_Write mB sB valueB) (exec (GPIO_12_7_Write mA sA valueA) h).
Proof.
  intros Hd.
  apply port_regs_eq; [reflexivity | | reflexivity].
  run_hw. apply Z.bits_inj'. intros i Hi.
  assert (Hi' : Z.testbit mA i = true -> Z.testbit mB i = false)
    by (apply disjoint_bits; exact Hd).
  repeat (rewrite testbit_uint8 || rewrite Z.lor_spec || rewrite Z.land_spec
          || rewrite Z.lnot_spec by exact Hi).
  destruct (Z.testbit mA i); [rewrite (Hi' eq_refl) |];
    destruct (i <? 8); cbn; try reflexivity;
    repeat match goal with
           | |- context [Z.testbit ?a ?b] => destruct (Z.testbit a b)
           end; reflexivity.
Qed.

Lemma sibling_writes_commute_witness :
  Z.land 1 2 = 0 /\
  exec (GPIO_12_7_Write 1 0 1) (exec (GPIO_12_7_Write 2 1 0) bank_0x55)
  = exec (GPIO_12_7_Write 2 1 0) (exec (GPIO_12_7_Write 1 0 1) bank_0x55).
Proof.
  split; [reflexivity |].
  apply (sibling_writes_commute 1 0 2 1 1 0 bank_0x55). reflexivity.
Defined.

(** X3 (the written value need not be masked).  For a valid descriptor
    a write only looks at the low [width] bits of its argument: writing
    [value] and writing [value & (2^width - 1)] leave the same bank. *)
Theorem write_ignores_high_value_bits MASK SHIFT width value (h : port_regs) :
  valid_descriptor MASK SHIFT width ->
  exec (GPIO_12_7_Write MASK SHIFT value) h
  = exec (GPIO_12_7_Write MASK SHIFT (Z.land value (Z.ones width))) h.
Proof.
  intros (Hs & Hw & Hfit & ->).
  apply port_regs_eq; [reflexivity | | reflexivity].
  run_hw. unfold uint8. Z.bitblast.
Qed.

Lemma write_ignores_high_value_bits_witness :
  valid_descriptor 0x80 7 1 /\
  exec (GPIO_12_7_Write 0x80 7 0xFF) bank_0x55
  = exec (GPIO_12_7_Write 0x80 7 1) bank_0x55.
Proof.
  split; [exact valid_descriptor_0x80 |].
  exact (write_ignores_high_value_bits 0x80 7 1 0xFF bank_0x55
           valid_descriptor_0x80).
Defined.

Lemma field_of_register MASK SHIFT width r :
  valid_descriptor MASK SHIFT width ->
  uint8 (Z.shiftr (Z.land r MASK) SHIFT)
  = Z.land (Z.shiftr r SHIFT) (Z.ones width).
Proof.
  intros (Hs & Hw & Hfit & ->). unfold uint8. Z.bitblast.
Qed.

(** X4 (reads are right-justified and carry no foreign bit).  For a
    valid descriptor and any register contents, [GPIO_12_7_Read] and
    [GPIO_12_7_ReadDataReg] return bits [SHIFT .. SHIFT+width-1] of the
    pin-state and of the data register moved down to bit 0; these values
    and the one [GPIO_12_7_ClearInterrupt] returns lie in [0, 2^width). *)
Theorem reads_return_the_field MASK SHIFT width (h : port_regs) :
  valid_descriptor MASK SHIFT width ->
  eval (GPIO_12_7_Read MASK SHIFT) h
    = Z.land (Z.shiftr (GPIO_12_7_PS h) SHIFT) (Z.ones width)
  /\ eval (GPIO_12_7_ReadDataReg MASK SHIFT) h
     = Z.land (Z.shiftr (GPIO_12_7_DR h) SHIFT) (Z.ones width)
  /\ 0 <= eval (GPIO_12_7_Read MASK SHIFT) h < 2 ^ width
  /\ 0 <= eval (GPIO_12_7_ReadDataReg MASK SHIFT) h < 2 ^ width
  /\ 0 <= eval (GPIO_12_7_ClearInterrupt MASK SHIFT) h < 2 ^ width.
Proof.
  intros Hv. pose proof Hv as (_ & Hw & _).
  run_hw. rewrite !(field_of_register MASK SHIFT width) by exact Hv.
  repeat split; try reflexivity; apply land_ones_range; exact Hw.
Qed.

Lemma reads_return_the_field_witness :
  valid_descriptor 0x80 7 1 /\
  eval (GPIO_12_7_Read 0x80 7) bank_0x55 = 1 /\
  eval (GPIO_12_7_ReadDataReg 0x80 7) bank_0x55 = 0.
Proof.
  split; [exact valid_descriptor_0x80 |].
  destruct (reads_return_the_field 0x80 7 1 bank_0x55 valid_descriptor_0x80)
    as (Hread & Hdata & _).
  split; [exact Hread | exact Hdata].
Defined.

(** ** The guard around the generated API *)

Lemma mask_clear_of_P15_7_6 SHIFT width :
  0 <= SHIFT -> 1 <= width -> SHIFT + width <= 8 ->
  (Z.land (Z.shiftl (Z.ones width) SHIFT) 0xC0 =? 0) = (SHIFT + width <=? 6).
Proof.
  intros Hs Hw Hfit.
  change 0xC0 with (Z.shiftl (Z.ones 2) 6).
  destruct (Z.leb_spec (SHIFT + width) 6) as [Hle | Hgt].
  - apply Z.eqb_eq. Z.bitblast.
  - apply Z.eqb_neq. intros E.
    assert (B : Z.testbit
                  (Z.land (Z.shiftl (Z.ones width) SHIFT)
                          (Z.shiftl (Z.ones 2) 6))
                  (SHIFT + width - 1) = false)
      by (rewrite E; apply Z.testbit_0_l).
    rewrite Z.land_spec, !Z.shiftl_spec, !Z.testbit_ones_nonneg in B by lia.
    destruct (Z.ltb_spec (SHIFT + width - 1 - SHIFT) width); [| lia].
    destruct (Z.ltb_spec (SHIFT + width - 1 - 6) 2); [| lia].
    discriminate.
Qed.

(** X5 (which ports get an API).  For a valid descriptor that owns at
    least one bit, the functions of the component are compiled unless
    the device is a PSoC 5A, the port number is 15 and the port's
    highest bit is bit 6 or bit 7 ([SHIFT + width > 6]). *)
Theorem api_generated_iff CY_PSOC5A PORT MASK SHIFT width :
  valid_descriptor MASK SHIFT width -> 1 <= width ->
  GPIO_12_7_api_generated CY_PSOC5A PORT MASK
  = negb (negb (CY_PSOC5A =? 0) && (PORT =? 15) && (6 <? SHIFT + width)).
Proof.
  intros (Hs & _ & Hfit & ->) Hw. unfold GPIO_12_7_api_generated.
  rewrite mask_clear_of_P15_7_6 by assumption.
  rewrite Z.leb_antisym, negb_involutive. reflexivity.
Qed.

Lemma api_generated_iff_witness :
  valid_descriptor 0x80 7 1 /\
  GPIO_12_7_api_generated 1 15 0x80 = false /\
  GPIO_12_7_api_generated 1 12 0x80 = true.
Proof.
  assert (Hw : 1 <= 1) by lia.
  split; [exact valid_descriptor_0x80 |].
  split.
  - exact (api_generated_iff 1 15 0x80 7 1 valid_descriptor_0x80 Hw).
  - exact (api_generated_iff 1 12 0x80 7 1 valid_descriptor_0x80 Hw).
Defined.

(** ** The decoder: when it returns and what it consumes *)

Lemma getData_dat_0_or_1 l vessel vessel' l' :
  Python_getData l vessel = Some (vessel', l') ->
  dat vessel' = 0 \/ dat vessel' = 1.
Proof.
  unfold Python_getData.
  match goal with
  | |- match ?r with _ => _ end = _ -> _ =>
      destruct r as [[[[[a c] lo] hi] l0] |]
  end; [| discriminate].
  intros E. injection E as <- _. cbn [dat].
  unfold logical_or. destruct (negb _ || negb _); [right | left]; reflexivity.
Qed.

Lemma getData_keeps_pin_port l vessel vessel' l' :
  Python_getData l vessel = Some (vessel', l') ->
  pin vessel' = pin vessel /\ port vessel' = port vessel
  /\ is_uint8 (addr vessel') /\ is_uint8 (cmd vessel').
Proof.
  unfold Python_getData.
  destruct l as [spi | i2c].
  - destruct spi as [[| b0 [| b1 [| b2 [| b3 rest]]]] tx]; try discriminate.
    cbn. intros E. injection E as <- _. cbn.
    repeat split; try apply is_uint8_uint8.
  - destruct (WriteBufSize i2c =? 0); [discriminate |].
    destruct (negb (WR_CMPLT i2c)); [discriminate |].
    destruct (WR_buf i2c) as [| b0 [| b1 [| b2 [| b3 rest]]]];
      try discriminate.
    cbn. intros E. injection E as <- _. cbn.
    repeat split; try apply is_uint8_uint8.
Qed.

(** X6 (the decoder returns exactly when a frame is there).
    [Python_getData] returns a vessel if and only if the master has
    delivered four bytes: on SPI at least four bytes are pending, on I2C
    the write is complete, its count is nonzero and [WR_buf] has four
    entries.  Otherwise the call stays blocked. *)
Theorem getData_returns_iff_delivered l vessel :
  Python_getData l vessel <> None <-> exists a c lo hi, delivers l a c lo hi.
Proof.
  split.
  - intros H. destruct l as [spi | i2c]; cbn [delivers].
    + destruct spi as [[| b0 [| b1 [| b2 [| b3 rest]]]] tx];
        try (exfalso; apply H; reflexivity).
      exists b0, b1, b2, b3, rest. reflexivity.
    + unfold Python_getData in H.
      destruct (Z.eqb_spec (WriteBufSize i2c) 0) as [E | Hsz];
        [exfalso; apply H; reflexivity |].
      destruct (WR_CMPLT i2c) eqn:Hc; cbn [negb] in H;
        [| exfalso; apply H; reflexivity].
      destruct (WR_buf i2c) as [| b0 [| b1 [| b2 [| b3 rest]]]];
        try (exfalso; apply H; reflexivity).
      exists b0, b1, b2, b3. repeat split; try assumption.
      exists rest. reflexivity.
  - intros (a & c & lo & hi & Hd).
    destruct (Python_getData_delivers l vessel a c lo hi Hd) as [l' E].
    rewrite E. discriminate.
Qed.

Lemma getData_returns_iff_delivered_witness :
  Python_getData (USE_SPI (mk_SPIS_1 [0x20; 0x01; 0x12; 0x00] []))
    (mk_vessel 0 0 0 0 0) <> None
  /\ ~ exists a c lo hi,
         delivers (USE_SPI (mk_SPIS_1 [0x20; 0x01; 0x12] [])) a c lo hi.
Proof.
  split.
  - apply (proj2 (getData_returns_iff_delivered
                    (USE_SPI (mk_SPIS_1 [0x20; 0x01; 0x12; 0x00] []))
                    (mk_vessel 0 0 0 0 0))).
    exists 0x20, 0x01, 0x12, 0x00, []. reflexivity.
  - intros H.
    apply (proj2 (getData_returns_iff_delivered
                    (USE_SPI (mk_SPIS_1 [0x20; 0x01; 0x12] []))
                    (mk_vessel 0 0 0 0 0))) in H.
    apply H. reflexivity.
Defined.

(** X7 (SPI: one call consumes one frame).  When [Python_getData]
    returns on the SPI build it has removed exactly the first four
    pending bytes; later bytes stay queued in order for the next call
    and the transmit buffer is untouched. *)
Theorem getData_spi_consumes_four spi vessel vessel' l' :
  Python_getData (USE_SPI spi) vessel = Some (vessel', l') ->
  l' = USE_SPI {| RxBuffer := skipn 4 (RxBuffer spi);
                  TxBuffer := TxBuffer spi |}.
Proof.
  destruct spi as [[| b0 [| b1 [| b2 [| b3 rest]]]] tx]; try discriminate.
  cbn. intros E. injection E as _ <-. reflexivity.
Qed.

Lemma getData_spi_consumes_four_witness :
  USE_SPI (mk_SPIS_1 [0x21; 0x03] [0x99])
  = USE_SPI {| RxBuffer := skipn 4 [0x20; 0x01; 0x12; 0x00; 0x21; 0x03];
               TxBuffer := [0x99] |}.
Proof.
  exact (getData_spi_consumes_four
           (mk_SPIS_1 [0x20; 0x01; 0x12; 0x00; 0x21; 0x03] [0x99])
           (mk_vessel 0 0 0 5 9)
           (mk_vessel 0x20 0x01 1 5 9)
           (USE_SPI (mk_SPIS_1 [0x21; 0x03] [0x99]))
           eq_refl).
Defined.



(** X9 (I2C: the byte count is not checked).  On the I2C build the
    decoder only tests that the write count is nonzero: any two nonzero
    counts give the same result, so a write shorter than four bytes is
    decoded together with the bytes an earlier write left in [WR_buf]. *)
Theorem getData_i2c_ignores_byte_count wr rd n m k vessel :
  n <> 0 -> m <> 0 ->
  Python_getData (USE_I2C (mk_I2C_1 wr n true rd k)) vessel
  = Python_getData (USE_I2C (mk_I2C_1 wr m true rd k)) vessel.
Proof.
  intros Hn Hm. unfold Python_getData. cbn [WriteBufSize WR_CMPLT WR_buf].
  destruct (Z.eqb_spec n 0); [contradiction |].
  destruct (Z.eqb_spec m 0); [contradiction |].
  reflexivity.
Qed.

Lemma getData_i2c_ignores_byte_count_witness :
  Python_getData
    (USE_I2C (mk_I2C_1 [0x21; 0x01; 0x12; 0x00] 1 true [0; 0; 0; 0] 0))
    (mk_vessel 0 0 0 0 0)
  = Some (mk_vessel 0x21 0x01 1 0 0,
          USE_I2C (mk_I2C_1 [0x21; 0x01; 0x12; 0x00] 0 false [0; 0; 0; 0] 0)).
Proof.
  rewrite (getData_i2c_ignores_byte_count
             [0x21; 0x01; 0x12; 0x00] [0; 0; 0; 0] 1 4 0 (mk_vessel 0 0 0 0 0));
    [reflexivity | lia | lia].
Defined.

(** ** Decoding followed by dispatch *)

Lemma land_small_range x n m :
  0 <= n -> m = Z.ones n -> 0 <= Z.land x m < 2 ^ n.
Proof. intros Hn ->. apply land_ones_range, Hn. Qed.

Section DispatchFacts.

Variable address_of : peripheral -> Z.
Variable compiled_in : peripheral -> bool.
Variables GPIO_REGISTER CHECK_BUILD RESET_ADDRESS : Z.

(** X10 (a decoded GPIO frame always selects pin 0 of port 0).  The
    decoder stores 0 or 1 in the data member, so when a vessel it
    returned is addressed to [GPIO_REGISTER] the parser derives pin 0
    and port 0 whatever bytes were sent; command 3 then answers 0 and
    every other command leaves the data member as decoded. *)
Theorem decoded_gpio_frame_has_pin_port_zero l vessel vessel' l' :
  gpio_label_distinct address_of compiled_in GPIO_REGISTER ->
  Python_getData l vessel = Some (vessel', l') ->
  addr vessel' = GPIO_REGISTER ->
  pin (Python_parser address_of compiled_in GPIO_REGISTER CHECK_BUILD
         RESET_ADDRESS vessel') = 0
  /\ port (Python_parser address_of compiled_in GPIO_REGISTER CHECK_BUILD
             RESET_ADDRESS vessel') = 0
  /\ (cmd vessel' = 3 ->
      dat (Python_parser address_of compiled_in GPIO_REGISTER CHECK_BUILD
             RESET_ADDRESS vessel') = 0)
  /\ (cmd vessel' <> 3 ->
      dat (Python_parser address_of compiled_in GPIO_REGISTER CHECK_BUILD
             RESET_ADDRESS vessel') = dat vessel').
Proof.
  intros Hd Hg Ha.
  rewrite Python_parser_gpio_case by assumption. cbn [pin port dat].
  destruct (getData_dat_0_or_1 _ _ _ _ Hg) as [-> | ->].
  - repeat split.
    + intros ->. reflexivity.
    + intros _. destruct (cmd vessel' =? 1); [reflexivity |].
      destruct (cmd vessel' =? 3); reflexivity.
  - repeat split.
    + intros ->. reflexivity.
    + intros H3. destruct (cmd vessel' =? 1); [reflexivity |].
      destruct (Z.eqb_spec (cmd vessel') 3); [contradiction | reflexivity].
Qed.

(** X11 (the parser keeps every member in range).  If the members of a
    vessel are in range (8-bit address and command, 16-bit data, pin
    below 8, port below 16), so are the members of the vessel the parser
    returns, for every address and command and every build. *)
Theorem parser_keeps_vessel_ok vessel :
  vessel_ok vessel ->
  vessel_ok (Python_parser address_of compiled_in GPIO_REGISTER CHECK_BUILD
               RESET_ADDRESS vessel).
Proof.
  intros Hok. pose proof Hok as (Ha & Hc & Hdat & Hpin & Hport).
  unfold Python_parser.
  destruct (peripheral_case _ _ _); [exact Hok |].
  destruct (addr vessel =? GPIO_REGISTER).
  - assert (P : 0 <= Z.land (Z.shiftr (dat vessel) 1) 7 < 8)
      by (apply (land_small_range _ 3); [lia | reflexivity]).
    assert (Q : 0 <= Z.land (Z.shiftr (dat vessel) 4) 15 < 16)
      by (apply (land_small_range _ 4); [lia | reflexivity]).
    assert (D1 : 0 <= Z.land (dat vessel) 1 < 2)
      by (apply (land_small_range _ 1); [lia | reflexivity]).
    assert (D3 : 0 <= Z.land (Z.shiftr (dat vessel) 8) 15 < 16)
      by (apply (land_small_range _ 4); [lia | reflexivity]).
    cbn [addr cmd dat pin port].
    rewrite uint16_land_1, uint16_land_15.
    destruct (cmd vessel =? 1); [| destruct (cmd vessel =? 3)];
      unfold vessel_ok, is_uint16; cbn [addr cmd dat pin port];
      repeat split; try apply Ha; try apply Hc; try apply Hdat; lia.
  - destruct (addr vessel =? CHECK_BUILD); [exact Hok |].
    destruct (addr vessel =? RESET_ADDRESS); exact Hok.
Qed.

End DispatchFacts.

Lemma decoded_gpio_frame_has_pin_port_zero_witness :
  pin (example_parser (mk_vessel 0x20 0x03 1 5 9)) = 0
  /\ port (example_parser (mk_vessel 0x20 0x03 1 5 9)) = 0
  /\ dat (example_parser (mk_vessel 0x20 0x03 1 5 9)) = 0.
Proof.
  destruct (decoded_gpio_frame_has_pin_port_zero
              example_address_of example_compiled_in 0x20 0xEE 0xFF
              (USE_SPI (mk_SPIS_1 [0x20; 0x03; 0x34; 0x0F] []))
              (mk_vessel 0 0 0 5 9)
              (mk_vessel 0x20 0x03 1 5 9)
              (USE_SPI (mk_SPIS_1 [] []))
              example_gpio_label_distinct eq_refl eq_refl)
    as (Hpin & Hport & Hcmd3 & _).
  split; [exact Hpin |]. split; [exact Hport |]. exact (Hcmd3 eq_refl).
Defined.

Lemma vessel_ok_example : vessel_ok (mk_vessel 0x20 0x01 0x0F12 0 0).
Proof. unfold vessel_ok, is_uint8, is_uint16; cbn; lia. Qed.

Lemma parser_keeps_vessel_ok_witness :
  vessel_ok (mk_vessel 0x20 0x01 0x0F12 0 0) /\
  vessel_ok (example_parser (mk_vessel 0x20 0x01 0x0F12 0 0)).
Proof.
  split; [exact vessel_ok_example |].
  exact (parser_keeps_vessel_ok example_address_of example_compiled_in
           0x20 0xEE 0xFF (mk_vessel 0x20 0x01 0x0F12 0 0) vessel_ok_example).
Defined.

(** X12 (the decoder hands a vessel in range to the parser).  Whatever
    numbers the receive buffer holds, the vessel [Python_getData]
    returns has an 8-bit address and command and a data member of 0 or
    1; it leaves the pin and port members as they were, so they are in
    range if they were before the call. *)
Theorem getData_establishes_vessel_ok l vessel vessel' l' :
  0 <= pin vessel < 8 -> 0 <= port vessel < 16 ->
  Python_getData l vessel = Some (vessel', l') ->
  vessel_ok vessel'
  /\ pin vessel' = pin vessel /\ port vessel' = port vessel
  /\ (dat vessel' = 0 \/ dat vessel' = 1).
Proof.
  intros Hp Hq Hg.
  destruct (getData_keeps_pin_port _ _ _ _ Hg) as (Ep & Eq & Ha & Hc).
  pose proof (getData_dat_0_or_1 _ _ _ _ Hg) as Hd.
  split; [| split; [exact Ep | split; [exact Eq | exact Hd]]].
  unfold vessel_ok, is_uint16. rewrite Ep, Eq.
  repeat split; try apply Ha; try apply Hc; try lia;
    destruct Hd as [-> | ->]; lia.
Qed.

Lemma getData_establishes_vessel_ok_witness :
  vessel_ok (mk_vessel (uint8 0x120) (uint8 (-1)) 1 5 9).
Proof.
  assert (Hp : 0 <= 5 < 8) by lia.
  assert (Hq : 0 <= 9 < 16) by lia.
  exact (proj1 (getData_establishes_vessel_ok
                  (USE_SPI (mk_SPIS_1 [0x120; -1; 0x1234; 7] []))
                  (mk_vessel 0 0 0 5 9)
                  (mk_vessel (uint8 0x120) (uint8 (-1)) 1 5 9)
                  (USE_SPI (mk_SPIS_1 [] []))
                  Hp Hq eq_refl)).
Defined.

(** ** The encoder: what is sent and when *)

Lemma is_uint32_uint32 x : is_uint32 (uint32 x).
Proof. apply Z.mod_pos_bound. lia. Qed.

Lemma uint32_idem x : uint32 (uint32 x) = uint32 x.
Proof. unfold uint32. apply Z.mod_mod. lia. Qed.

Lemma Python_sendData_uint32 dat l :
  Python_sendData dat l = Python_sendData (uint32 dat) l.
Proof. unfold Python_sendData. rewrite uint32_idem. reflexivity. Qed.

Lemma Python_sendData_sent l dat :
  ready_to_send l -> is_uint32 dat ->
  exists l',
    Python_sendData dat l = Some l' /\
    sent l' = [ Z.land dat 0xFF; Z.land (Z.shiftr dat 8) 0xFF;
                Z.land (Z.shiftr dat 16) 0xFF; Z.land (Z.shiftr dat 24) 0xFF ].
Proof.
  intros Hr Hd.
  pose proof (byte_of_uint32 dat 0 Hd ltac:(lia)) as B0.
  pose proof (byte_of_uint32 dat 8 Hd ltac:(lia)) as B1.
  pose proof (byte_of_uint32 dat 16 Hd ltac:(lia)) as B2.
  pose proof (byte_of_uint32 dat 24 Hd ltac:(lia)) as B3.
  rewrite Z.shiftr_0_r in B0.
  change (Z.shiftl 255 0) with 0x000000FF in B0.
  change (Z.shiftl 255 8) with 0x0000FF00 in B1.
  change (Z.shiftl 255 16) with 0x00FF0000 in B2.
  change (Z.shiftl 255 24) with 0xFF000000 in B3.
  unfold Python_sendData.
  destruct l as [spi | i2c]; cbn [ready_to_send] in Hr.
  - eexists. split; [reflexivity |].
    cbn [sent TxBuffer RxBuffer app firstn].
    rewrite B0, B1, B2, B3. reflexivity.
  - destruct Hr as [Hsz Hlen].
    rewrite Hsz. cbn [Z.eqb negb]. rewrite B0, B1, B2, B3.
    destruct (RD_buf i2c) as [| x0 [| x1 [| x2 [| x3 rest]]]];
      cbn in Hlen; try lia.
    eexists. split; reflexivity.
Qed.

Lemma little_endian_32_bytes x :
  is_uint32 x ->
  little_endian_32 (Z.land x 0xFF) (Z.land (Z.shiftr x 8) 0xFF)
    (Z.land (Z.shiftr x 16) 0xFF) (Z.land (Z.shiftr x 24) 0xFF) = x.
Proof.
  intros [H0 H1]. unfold little_endian_32.
  change 0xFF with (Z.ones 8).
  rewrite !Z.land_ones, !Z.shiftr_div_pow2 by lia.
  change (2 ^ 8) with 256. change (2 ^ 16) with 65536.
  change (2 ^ 24) with 16777216. change (2 ^ 32) with 4294967296 in H1.
  assert (x / 16777216 < 256) by (apply Z.div_lt_upper_bound; lia).
  assert (0 <= x / 16777216) by (apply Z.div_pos; lia).
  rewrite (Z.mod_small (x / 16777216)) by lia.
  pose proof (Z.div_mod x 256 ltac:(lia)).
  pose proof (Z.div_mod (x / 256) 256 ltac:(lia)).
  pose proof (Z.div_mod (x / 65536) 256 ltac:(lia)).
  replace (x / 65536) with (x / 256 / 256) in *
    by (rewrite Z.div_div by lia; reflexivity).
  replace (x / 16777216) with (x / 256 / 256 / 256)
    by (rewrite !Z.div_div by lia; reflexivity).
  lia.
Qed.

(** X13 (the response round trip).  For every integer passed to
    [Python_sendData] on a link that is ready, exactly four bytes are
    sent, each in [0, 256), and put together least significant first
    they give back the argument reduced modulo 2^32. *)
Theorem sendData_round_trip l dat :
  ready_to_send l ->
  exists l' b0 b1 b2 b3,
    Python_sendData dat l = Some l'
    /\ sent l' = [b0; b1; b2; b3]
    /\ is_uint8 b0 /\ is_uint8 b1 /\ is_uint8 b2 /\ is_uint8 b3
    /\ little_endian_32 b0 b1 b2 b3 = uint32 dat.
Proof.
  intros Hr.
  destruct (Python_sendData_sent l (uint32 dat) Hr (is_uint32_uint32 dat))
    as (l' & E & Hs).
  rewrite <- Python_sendData_uint32 in E.
  exists l'. do 4 eexists. split; [exact E |]. split; [exact Hs |].
  repeat split; try (apply (land_ones_range _ 8); lia).
  apply little_endian_32_bytes, is_uint32_uint32.
Qed.

Lemma sendData_round_trip_witness :
  exists l' b0 b1 b2 b3,
    Python_sendData (-2)
      (USE_I2C (mk_I2C_1 [] 0 false [0; 0; 0; 0; 0x55] 0)) = Some l'
    /\ sent l' = [b0; b1; b2; b3]
    /\ is_uint8 b0 /\ is_uint8 b1 /\ is_uint8 b2 /\ is_uint8 b3
    /\ little_endian_32 b0 b1 b2 b3 = 0xFFFFFFFE.
Proof.
  apply (sendData_round_trip
           (USE_I2C (mk_I2C_1 [] 0 false [0; 0; 0; 0; 0x55] 0)) (-2)).
  split; [reflexivity | cbn; lia].
Defined.

(** X14 (when the encoder can send).  [Python_sendData] gets past its
    first wait and stages the bytes if and only if the link is ready: on
    SPI always; on I2C only when the master's read count is 0 and
    [RD_buf] has at least four entries. *)
Theorem sendData_returns_iff_ready dat l :
  Python_sendData dat l <> None <-> ready_to_send l.
Proof.
  destruct l as [spi | i2c]; cbn [ready_to_send].
  - split; [intros _; exact I | intros _; discriminate].
  - unfold Python_sendData.
    destruct (Z.eqb_spec (ReadBufSize i2c) 0) as [Hz | Hnz]; cbn [negb].
    + split.
      * intros H.
        destruct (RD_buf i2c) as [| x0 [| x1 [| x2 [| x3 rest]]]];
          try (exfalso; apply H; reflexivity).
        split; [exact Hz | cbn; lia].
      * intros [_ Hlen].
        destruct (RD_buf i2c) as [| x0 [| x1 [| x2 [| x3 rest]]]];
          cbn in Hlen; try lia.
        cbn. discriminate.
    + split; [intros H; exfalso; apply H; reflexivity
             | intros [Hz _]; contradiction].
Qed.

Lemma sendData_returns_iff_ready_witness :
  ~ ready_to_send (USE_I2C (mk_I2C_1 [] 0 false [0; 0; 0; 0] 2))
  /\ Python_sendData 7 (USE_I2C (mk_I2C_1 [] 0 false [0; 0; 0; 0] 0)) <> None.
Proof.
  split.
  - intros H.
    apply (proj2 (sendData_returns_iff_ready 7
                    (USE_I2C (mk_I2C_1 [] 0 false [0; 0; 0; 0] 2)))) in H.
    apply H. reflexivity.
  - apply (proj2 (sendData_returns_iff_ready 7
                    (USE_I2C (mk_I2C_1 [] 0 false [0; 0; 0; 0] 0)))).
    split; [reflexivity | cbn; lia].
Defined.

(** X16 (I2C: sending touches four bytes only).  On the I2C build
    [Python_sendData] overwrites entries 0 to 3 of [RD_buf] and nothing
    else: the buffer keeps its length and its entries from index 4 on,
    and the write buffer, its count and its status are unchanged. *)
Theorem sendData_i2c_frame dat i2c l' :
  Python_sendData dat (USE_I2C i2c) = Some l' ->
  exists i2c',
    l' = USE_I2C i2c'
    /\ length (RD_buf i2c') = length (RD_buf i2c)
    /\ skipn 4 (RD_buf i2c') = skipn 4 (RD_buf i2c)
    /\ WR_buf i2c' = WR_buf i2c
    /\ WriteBufSize i2c' = WriteBufSize i2c
    /\ WR_CMPLT i2c' = WR_CMPLT i2c.
Proof.
  unfold Python_sendData.
  destruct (negb (ReadBufSize i2c =? 0)); [discriminate |].
  destruct (RD_buf i2c) as [| x0 [| x1 [| x2 [| x3 rest]]]]; try discriminate.
  cbn. intros E. injection E as <-.
  eexists. split; [reflexivity |]. cbn. repeat split.
Qed.

Lemma sendData_i2c_frame_witness :
  exists i2c',
    USE_I2C (mk_I2C_1 [0x20] 1 true [0x78; 0x56; 0x34; 0x12; 0x55] 0)
    = USE_I2C i2c'
    /\ length (RD_buf i2c') = 5%nat
    /\ skipn 4 (RD_buf i2c') = [0x55]
    /\ WR_buf i2c' = [0x20]
    /\ WriteBufSize i2c' = 1
    /\ WR_CMPLT i2c' = true.
Proof.
  exact (sendData_i2c_frame 0x12345678
           (mk_I2C_1 [0x20] 1 true [0; 0; 0; 0; 0x55] 0)
           (USE_I2C (mk_I2C_1 [0x20] 1 true [0x78; 0x56; 0x34; 0x12; 0x55] 0))
           eq_refl).
Defined.
